(** * shopify-app-remix helpers, the MongoDB session-storage package and
      their type contracts: a shallow embedding and its properties.

    Sources embedded here:
    - [packages/shopify-app-remix/src/auth/helpers/redirect-with-app-bridge-headers.ts]
    - the type module declaring [BasicParams], [LoginErrorType], [LoginError]
    - [packages/apps/session-storage/shopify-app-session-storage-mongodb/jest.config.ts]

    The platform classes the helper calls ([Headers], [Response]) are
    modelled in [Platform] after the Fetch standard: a [Headers] object
    holds one value per case-folded name; a value is stored with its
    leading and trailing HTTP whitespace removed; a name that is not a
    token, or a value with NUL, CR or LF left inside, is refused with a
    [TypeError].  As on the server runtimes the helper runs on, no header
    name is reserved.  A string is given by its code units, which are taken
    below 256. *)

From Stdlib Require Import ZArith Ascii String.
From stdpp Require Import base option strings gmap list fin_maps.

Local Open Scope Z_scope.

(** ** The platform: strings, [Headers], [Response], and JS completions *)

Module Platform.

(** Byte-lowercasing of a header name ([A]-[Z] only). *)
Definition ascii_lower (c : ascii) : ascii :=
  let n := nat_of_ascii c in
  if ((65 <=? n)%nat && (n <=? 90)%nat)%bool then ascii_of_nat (n + 32) else c.

Fixpoint lower (s : string) : string :=
  match s with
  | EmptyString => EmptyString
  | String c s' => String (ascii_lower c) (lower s')
  end.

(** HTTP whitespace: tab, LF, CR and space. *)
Definition is_http_whitespace (c : ascii) : bool :=
  match nat_of_ascii c with
  | 9%nat | 10%nat | 13%nat | 32%nat => true
  | _ => false
  end.

Fixpoint strip_leading (s : string) : string :=
  match s with
  | EmptyString => EmptyString
  | String c s' => if is_http_whitespace c then strip_leading s' else s
  end.

Fixpoint strip_trailing (s : string) : string :=
  match s with
  | EmptyString => EmptyString
  | String c s' =>
      match strip_trailing s' with
      | EmptyString => if is_http_whitespace c then EmptyString
                       else String c EmptyString
      | t => String c t
      end
  end.

(** Normalizing a header value: HTTP whitespace is removed at both ends. *)
Definition normalize (value : string) : string :=
  strip_trailing (strip_leading value).

Fixpoint all_chars (p : ascii → bool) (s : string) : bool :=
  match s with
  | EmptyString => true
  | String c s' => p c && all_chars p s'
  end.

(** The characters of a token. *)
Definition is_tchar (c : ascii) : bool :=
  let n := nat_of_ascii c in
  ((48 <=? n)%nat && (n <=? 57)%nat)
  || ((65 <=? n)%nat && (n <=? 90)%nat)
  || ((97 <=? n)%nat && (n <=? 122)%nat)
  || bool_decide (n ∈ [33; 35; 36; 37; 38; 39; 42; 43; 45; 46; 94; 95; 96;
                       124; 126]%nat).

(** A header name is a token: not empty, of token characters only. *)
Definition is_header_name (name : string) : bool :=
  match name with
  | EmptyString => false
  | _ => all_chars is_tchar name
  end.

(** A (normalized) header value has no NUL, LF or CR. *)
Definition is_header_value (value : string) : bool :=
  all_chars (λ c, match nat_of_ascii c with
                  | 0%nat | 10%nat | 13%nat => false
                  | _ => true
                  end) value.

(** Whether [Headers] accepts the pair: the name is a header name and the
    normalized value a header value. *)
Definition Headers_valid (name value : string) : bool :=
  is_header_name name && is_header_value (normalize value).

(** A [Headers] object's content: one value per case-folded name. *)
Abbreviation Headers := (gmap string string).

(** [headers.get(name)], for a header name [name] *)
Definition Headers_get (name : string) (h : Headers) : option string :=
  h !! lower name.

(** [headers.has(name)], for a header name [name] *)
Definition Headers_has (name : string) (h : Headers) : bool :=
  bool_decide (is_Some (h !! lower name)).

(** The entries once an accepted pair is set: the normalized value is
    stored under the case-folded name. *)
Definition Headers_put (name value : string) (h : Headers) : Headers :=
  <[lower name := normalize value]> h.

(** [headers.set(name, value)]: the new entries, or [None] where it raises
    a [TypeError]. *)
Definition Headers_set (name value : string) (h : Headers) : option Headers :=
  if Headers_valid name value then Some (Headers_put name value h) else None.

(** [headers.append(name, value)]: an existing value is extended; [None]
    where it raises a [TypeError]. *)
Definition Headers_append (name value : string) (h : Headers)
    : option Headers :=
  if Headers_valid name value
  then Some match h !! lower name with
            | Some old => <[lower name := old +:+ ", " +:+ normalize value]> h
            | None => Headers_put name value h
            end
  else None.

(** The content of [new Headers(init)] for a record [init]; [None] where
    the constructor raises a [TypeError]. *)
Definition Headers_of_init (init : list (string * string)) : option Headers :=
  foldl (λ oh kv, oh ≫= Headers_append kv.1 kv.2) (Some ∅) init.

(** The entries once a list of accepted pairs is set, one after the
    other. *)
Definition Headers_put_all (l : list (string * string)) (h : Headers)
    : Headers :=
  foldl (λ h kv, Headers_put kv.1 kv.2 h) h l.

(** A [Response]; its headers are its own copy of the init headers. *)
Record Response := mkResponse {
  body : option string;
  status : Z;
  statusText : string;
  headers : Headers;
}.

(** How a call ends: with a value, by throwing a [Response], or with the
    [TypeError] a platform class raises. *)
Inductive completion (A : Type) : Type :=
| Normal (a : A)
| Throw (r : Response)
| ThrowTypeError.
Arguments Normal {A} a.
Arguments Throw {A} r.
Arguments ThrowTypeError {A}.

(** [Headers] objects are mutable and passed by reference: they live in a
    heap, and a variable holds a location. *)
Abbreviation loc := positive.
Abbreviation heap := (gmap positive (gmap string string)).

(** A computation: runs on a heap, ends in a completion and a heap. *)
Definition JS (A : Type) : Type := heap → completion A * heap.

#[export] Instance JS_ret : MRet JS := λ A a σ, (Normal a, σ).

#[export] Instance JS_bind : MBind JS := λ A B k m σ,
  match m σ with
  | (Normal a, σ') => k a σ'
  | (Throw r, σ') => (Throw r, σ')
  | (ThrowTypeError, σ') => (ThrowTypeError, σ')
  end.

(** [throw r] *)
Definition throw {A : Type} (r : Response) : JS A := λ σ, (Throw r, σ).

(** [new Headers(init)]: a fresh object, unless the constructor raises. *)
Definition newHeaders (init : list (string * string)) : JS loc := λ σ,
  match Headers_of_init init with
  | Some h => let l := fresh (dom σ) in (Normal l, <[l := h]> σ)
  | None => (ThrowTypeError, σ)
  end.

(** [headers.set(name, value)] on the object at [l], in place. *)
Definition setHeader (l : loc) (name value : string) : JS unit := λ σ,
  match σ !! l ≫= Headers_set name value with
  | Some h => (Normal tt, <[l := h]> σ)
  | None => (ThrowTypeError, σ)
  end.

(** [new Response(body, {status, statusText, headers})]: the response
    copies the entries of the [Headers] object it is given.  The
    constructor raises for a status outside 200..599 or a status text that
    is no reason phrase; the one call in the sources has neither. *)
Definition newResponse (body : option string) (status : Z)
    (statusText : string) (headers : loc) : JS Response := λ σ,
  (Normal (mkResponse body status statusText (default ∅ (σ !! headers))), σ).

(** A template literal: the literal chunks interleaved with the values of
    its substitutions, joined left to right. *)
Fixpoint templateLiteral (quasis substitutions : list string) : string :=
  match quasis, substitutions with
  | q :: qs, e :: es => q +:+ e +:+ templateLiteral qs es
  | q :: _, [] => q
  | [], _ => ""
  end.

End Platform.

Import Platform.

(** ** [redirect-with-app-bridge-headers.ts] *)

Module AppBridge.

(** The fields of [AppConfig] the helper reads. *)
Record AuthConfig := { path : string }.

Record AppConfig := {
  appUrl : string;
  auth : AuthConfig;
  isEmbeddedApp : bool;
}.

Section Helpers.

(** [Shopify] and its logger come from the vendor library. *)
Context {Shopify Logger : Type}.

Record BasicParams := {
  api : Shopify;
  config : AppConfig;
  logger : Logger;
}.

(** The header-name constant exported by [./add-response-headers]. *)
Variable REAUTH_URL_HEADER : string.

(** The headers [./add-response-headers] gives an embedded app for a shop,
    as name and value pairs. *)
Variable embeddedAppHeaders : string → list (string * string).

(** Modelled from the spec: [addResponseHeaders] of
    [./add-response-headers], whose source is not available.  The spec has
    it include the embedded-app-specific headers on the given [Headers]
    object, conditioned exactly on the [isEmbeddedApp] flag. *)
Definition addResponseHeaders (headers : loc) (isEmbeddedApp : bool)
    (shop : string) : JS unit :=
  if isEmbeddedApp
  then foldr (λ kv k, setHeader headers kv.1 kv.2 ;; k) (mret tt)
             (embeddedAppHeaders shop)
  else mret tt.

Definition getAppBridgeHeaders (params : BasicParams) (url shop : string)
    : JS loc :=
  let config := params.(config) in
  headers ← newHeaders [(REAUTH_URL_HEADER, url)];
  addResponseHeaders headers config.(isEmbeddedApp) shop ;;
  mret headers.

(** The local constant [redirectUri] of [redirectWithAppBridgeHeaders]. *)
Definition redirectUri (params : BasicParams) (shop : string) : string :=
  let config := params.(config) in
  templateLiteral [""; ""; "?shop="; ""]
                  [config.(appUrl); config.(auth).(path); shop].

(** TypeScript declares the result [never]; the embedding keeps a general
    completion so that the absence of a normal return is a property of the
    body. *)
Definition redirectWithAppBridgeHeaders (params : BasicParams)
    (shop : string) : JS unit :=
  let redirectUri := redirectUri params shop in
  headers ← getAppBridgeHeaders params redirectUri shop;
  response ← newResponse None 401 "Unauthorized" headers;
  throw response.

End Helpers.

Arguments BasicParams : clear implicits.



(** No embedded-app header of [shop] goes by the name [name]. *)
Definition notEmbeddedAppHeader
    (embeddedAppHeaders : string → list (string * string))
    (shop name : string) : Prop :=
  Forall (λ kv, lower kv.1 ≠ lower name) (embeddedAppHeaders shop).

(** Whether [Headers] accepts all that [getAppBridgeHeaders] gives it: the
    reauth name with [url], and, for an embedded app, the embedded-app
    headers of [shop]. *)
Definition headersAccepted {Shopify Logger : Type}
    (REAUTH_URL_HEADER : string)
    (embeddedAppHeaders : string → list (string * string))
    (params : BasicParams Shopify Logger) (url shop : string) : bool :=
  Headers_valid REAUTH_URL_HEADER url
  && (if params.(config).(isEmbeddedApp)
      then forallb (λ kv, Headers_valid kv.1 kv.2) (embeddedAppHeaders shop)
      else true).

(** The entries of the object [getAppBridgeHeaders] builds when all is
    accepted: the reauth header, and over it the embedded-app headers when
    the flag is set. *)
Definition appBridgeEntries {Shopify Logger : Type}
    (REAUTH_URL_HEADER : string)
    (embeddedAppHeaders : string → list (string * string))
    (params : BasicParams Shopify Logger) (url shop : string) : Headers :=
  let init := {[lower REAUTH_URL_HEADER := normalize url]} in
  if params.(config).(isEmbeddedApp)
  then Headers_put_all (embeddedAppHeaders shop) init
  else init.

End AppBridge.

(** ** The type module: [LoginErrorType] and [LoginError] *)

Module Types.

Inductive LoginErrorType := MissingShop | InvalidShop.

(** The enum members' values. *)
Definition LoginErrorType_value (t : LoginErrorType) : string :=
  match t with
  | MissingShop => "MISSING_SHOP"
  | InvalidShop => "INVALID_SHOP"
  end.

Record LoginError := { shop : option LoginErrorType }.

End Types.

(** ** [jest.config.ts] of the MongoDB session-storage package *)

Module JestConfig.

Section Config.

(** Values of configuration fields, with numbers among them. *)
Context {Value : Type}.
Variable number : Z → Value.

(** The shared configuration of [config/tests/jest.config]. *)
Variable baseConfig : gmap string Value.

(** An object literal: spreading [o] into the object built so far, and
    writing one property. *)
Definition spread (o acc : gmap string Value) : gmap string Value := o ∪ acc.
Definition property (k : string) (v : Value) (acc : gmap string Value)
  : gmap string Value := <[k := v]> acc.

Definition config : gmap string Value :=
  property "testTimeout" (number 70000) (spread baseConfig ∅).

End Config.

End JestConfig.

(** ** The session-storage adapter *)

Module SessionStorage.

(** A session record: its key and the payload fields the spec lists. *)
Record Session := {
  id : string;
  shop : string;
  accessToken : string;
  scope : string;
  expires : option Z;
  isOnline : bool;
}.

(** The calls the adapter makes to the database driver. *)
Inductive DriverCall :=
| ReplaceOne (key : string) (doc : Session)
| FindOne (key : string)
| DeleteOne (key : string).

(** The database: the collection, and the driver calls made so far. *)
Record Database := mkDatabase {
  documents : gmap string Session;
  calls : list DriverCall;
}.

Section Adapter.

(** The errors of the driver, and when it raises them. *)
Context {DriverError : Type}.
Variable raises : DriverCall → Database → option DriverError.

(** How an asynchronous operation settles. *)
Inductive settled (A : Type) : Type :=
| Resolved (a : A)
| Rejected (e : DriverError).
Arguments Resolved {A} a.
Arguments Rejected {A} e.

Definition Async (A : Type) : Type := Database → settled A * Database.

#[global] Instance Async_ret : MRet Async := λ A a db, (Resolved a, db).

#[global] Instance Async_bind : MBind Async := λ A B k m db,
  match m db with
  | (Resolved a, db') => k a db'
  | (Rejected e, db') => (Rejected e, db')
  end.

(** One call to the driver: it is recorded; the driver either raises or
    runs the call on the collection. *)
Definition driver {A : Type} (call : DriverCall)
    (run : gmap string Session → A * gmap string Session) : Async A := λ db,
  let called := call :: db.(calls) in
  match raises call db with
  | Some e => (Rejected e, mkDatabase db.(documents) called)
  | None => let '(a, docs) := run db.(documents) in
            (Resolved a, mkDatabase docs called)
  end.

(** Modelled from the spec: the adapter's [store], whose source is not
    available: store(session) upserts by key. *)
Definition store_session (session : Session) : Async unit :=
  driver (ReplaceOne session.(id) session)
         (λ docs, (tt, <[session.(id) := session]> docs)).

(** Modelled from the spec: the adapter's [load], whose source is not
    available: load(key) returns the record or nothing. *)
Definition load_session (key : string) : Async (option Session) :=
  driver (FindOne key) (λ docs, (docs !! key, docs)).

(** Modelled from the spec: the adapter's [delete], whose source is not
    available: delete(key) removes the record. *)
Definition delete_session (key : string) : Async unit :=
  driver (DeleteOne key) (λ docs, (tt, delete key docs)).

End Adapter.

Arguments settled : clear implicits.
Arguments Async : clear implicits.
Arguments Resolved {DriverError A} a.
Arguments Rejected {DriverError A} e.

End SessionStorage.

(** ** Sample inputs *)

Module Sample.

Definition REAUTH_URL_HEADER : string :=
  "X-Shopify-API-Request-Failure-Reauthorize-Url".

Definition embeddedAppHeaders (shop : string) : list (string * string) :=
  [("Content-Security-Policy",
    "frame-ancestors https://" +:+ shop +:+ " https://admin.shopify.com;")].

Definition params : AppBridge.BasicParams unit unit :=
  {| AppBridge.api := tt;
     AppBridge.config :=
       {| AppBridge.appUrl := "https://my-app.example";
          AppBridge.auth := {| AppBridge.path := "/auth" |};
          AppBridge.isEmbeddedApp := true |};
     AppBridge.logger := tt |}.

Definition shop : string := "my-shop.myshopify.com".

Definition session : SessionStorage.Session :=
  {| SessionStorage.id := "offline_my-shop.myshopify.com";
     SessionStorage.shop := "my-shop.myshopify.com";
     SessionStorage.accessToken := "shpat_0123";
     SessionStorage.scope := "read_products";
     SessionStorage.expires := None;
     SessionStorage.isOnline := false |}.

Definition emptyDatabase : SessionStorage.Database :=
  SessionStorage.mkDatabase ∅ [].

(** A driver that never raises, and one that always raises [e]. *)
Definition healthy (call : SessionStorage.DriverCall)
    (db : SessionStorage.Database) : option string := None.

Definition broken (e : string) (call : SessionStorage.DriverCall)
    (db : SessionStorage.Database) : option string := Some e.

(** A shop with a blank at its end, a shop with a line feed inside, and a
    URL with blanks at both ends. *)
Definition shopTrailingBlank : string := "my-shop.myshopify.com ".

Definition shopLineFeed : string := String "a" (String "010" "b").

Definition urlBlanks : string := " /auth?shop=a b ".


End Sample.

(** * Properties *)

(** ** Facts about the platform model *)

Section PlatformFacts.

Lemma append_cons (a : ascii) (s t : string) :
  String a s +:+ t = String a (s +:+ t).
Proof. reflexivity. Qed.

Lemma append_empty_r (s : string) : s +:+ "" = s.
Proof.
  induction s as [|a s IH]; [reflexivity|].
  by rewrite append_cons, IH.
Qed.

Lemma append_assoc (s t u : string) : (s +:+ t) +:+ u = s +:+ t +:+ u.
Proof.
  induction s as [|a s IH]; [reflexivity|].
  by rewrite !append_cons, IH.
Qed.

(** Sequencing after a call that returns normally. *)
Lemma JS_bind_normal {A B : Type} (m : JS A) (k : A → JS B) (σ σ' : heap) a :
  m σ = (Normal a, σ') → (m ≫= k) σ = k a σ'.
Proof. intros Hm. unfold mbind, JS_bind. by rewrite Hm. Qed.

(** Sequencing after a call that raises: what follows is not run. *)
Lemma JS_bind_type_error {A B : Type} (m : JS A) (k : A → JS B)
    (σ σ' : heap) :
  m σ = (ThrowTypeError, σ') → (m ≫= k) σ = (ThrowTypeError, σ').
Proof. intros Hm. unfold mbind, JS_bind. by rewrite Hm. Qed.

Lemma Headers_of_init_single (name value : string) :
  Headers_of_init [(name, value)]
  = if Headers_valid name value
    then Some {[lower name := normalize value]} else None.
Proof.
  unfold Headers_of_init, Headers_append, Headers_put; simpl.
  destruct (Headers_valid name value); [|done].
  by rewrite lookup_empty, insert_empty.
Qed.

Lemma Headers_put_all_cons name value l (h : Headers) :
  Headers_put_all ((name, value) :: l) h
  = Headers_put_all l (Headers_put name value h).
Proof. reflexivity. Qed.



(** A name that is present stays present. *)
Lemma Headers_put_all_is_Some l (h : Headers) (k : string) :
  is_Some (h !! k) → is_Some (Headers_put_all l h !! k).
Proof.
  revert h. induction l as [|[name value] l IH]; intros h Hk; [done|].
  rewrite Headers_put_all_cons. apply IH. unfold Headers_put.
  rewrite lookup_insert. case_decide; [by eexists | done].
Qed.

(** A name that is not set keeps its value. *)
Lemma Headers_put_all_other l (h : Headers) (name : string) :
  Forall (λ kv, lower kv.1 ≠ lower name) l →
  Headers_put_all l h !! lower name = h !! lower name.
Proof.
  revert h. induction l as [|[k v] l IH]; intros h Hl; [done|].
  apply Forall_cons in Hl as [Hk Hl]. simpl in Hk.
  rewrite Headers_put_all_cons, IH by done.
  unfold Headers_put. by rewrite lookup_insert_ne.
Qed.

(** One [set] on the object at [l]. *)
Lemma setHeader_run (l : loc) (name value : string) (h : Headers) (σ : heap) :
  σ !! l = Some h →
  setHeader l name value σ
  = if Headers_valid name value
    then (Normal tt, <[l := Headers_put name value h]> σ)
    else (ThrowTypeError, σ).
Proof.
  intros Hl. unfold setHeader, Headers_set. rewrite Hl; simpl.
  by destruct (Headers_valid name value).
Qed.

(** The loop of [set] calls on the object at [l]: it goes through when
    every pair is accepted, and stops at the first that is not; only the
    object at [l] is written. *)
Lemma setHeader_loop_run (l : loc) (hs : list (string * string))
    (h : Headers) (σ : heap) :
  σ !! l = Some h →
  ∃ h' : Headers,
    foldr (λ kv k, setHeader l kv.1 kv.2 ;; k) (mret tt) hs σ
    = (if forallb (λ kv, Headers_valid kv.1 kv.2) hs
       then Normal tt else ThrowTypeError,
       <[l := h']> σ)
    ∧ (forallb (λ kv, Headers_valid kv.1 kv.2) hs = true →
       h' = Headers_put_all hs h).
Proof.
  revert h σ. induction hs as [|[k v] hs IH]; intros h σ Hl.
  - exists h. split; [|done].
    simpl. unfold mret, JS_ret. by rewrite insert_id.
  - cbn [foldr forallb fst snd]. destruct (Headers_valid k v) eqn:Hv.
    + destruct (IH (Headers_put k v h) (<[l := Headers_put k v h]> σ))
        as (h' & Hrun & Hh'); [apply lookup_insert_eq|].
      exists h'. split.
      * erewrite JS_bind_normal;
          [|rewrite (setHeader_run _ _ _ h) by done; by rewrite Hv].
        rewrite Hrun. cbn [andb]. by rewrite insert_insert_eq.
      * cbn [andb]. intros Hall. rewrite Headers_put_all_cons. by apply Hh'.
    + exists h. split; [|done].
      erewrite JS_bind_type_error;
        [|rewrite (setHeader_run _ _ _ h) by done; by rewrite Hv].
      cbn [andb]. by rewrite insert_id.
Qed.

End PlatformFacts.

(** ** [redirectWithAppBridgeHeaders] and [getAppBridgeHeaders] *)

Section AppBridgeProperties.

Import AppBridge.

Context {Shopify Logger : Type}.
Variable REAUTH_URL_HEADER : string.
Variable embeddedAppHeaders : string → list (string * string).

Local Abbreviation appBridgeEntries :=
  (appBridgeEntries REAUTH_URL_HEADER embeddedAppHeaders).
Local Abbreviation headersAccepted :=
  (headersAccepted REAUTH_URL_HEADER embeddedAppHeaders).

Lemma fresh_not_allocated (σ : heap) : σ !! fresh (dom σ) = None.
Proof. apply not_elem_of_dom, is_fresh. Qed.

Lemma addResponseHeaders_run (l : loc) (flag : bool) (shop : string)
    (h : Headers) (σ : heap) :
  let accepted :=
    if flag
    then forallb (λ kv, Headers_valid kv.1 kv.2) (embeddedAppHeaders shop)
    else true in
  σ !! l = Some h →
  ∃ h' : Headers,
    addResponseHeaders embeddedAppHeaders l flag shop σ
    = (if accepted then Normal tt else ThrowTypeError, <[l := h']> σ)
    ∧ (accepted = true →
       h' = if flag then Headers_put_all (embeddedAppHeaders shop) h else h).
Proof.
  intros accepted Hl. unfold addResponseHeaders, accepted. destruct flag.
  - by apply setHeader_loop_run.
  - exists h. split; [|done]. unfold mret, JS_ret. by rewrite insert_id.
Qed.

(** What [getAppBridgeHeaders] does on any input: when [Headers] accepts
    what it is given, one object is created and returned; otherwise the
    [TypeError] of [Headers] comes out.  Objects that existed are kept. *)
Lemma getAppBridgeHeaders_outcome (params : BasicParams Shopify Logger)
    (url shop : string) (σ : heap) :
  ∃ σ' : heap,
    σ ⊆ σ'
    ∧ getAppBridgeHeaders REAUTH_URL_HEADER embeddedAppHeaders params url shop σ
      = (if headersAccepted params url shop
         then Normal (fresh (dom σ)) else ThrowTypeError, σ')
    ∧ (headersAccepted params url shop = true →
       σ' = <[fresh (dom σ) := appBridgeEntries params url shop]> σ).
Proof.
  unfold getAppBridgeHeaders, AppBridge.headersAccepted,
    AppBridge.appBridgeEntries.
  destruct (Headers_valid REAUTH_URL_HEADER url) eqn:Hv; cbn [andb].
  - set (l := fresh (dom σ)).
    set (init := {[lower REAUTH_URL_HEADER := normalize url]} : Headers).
    assert (newHeaders [(REAUTH_URL_HEADER, url)] σ
            = (Normal l, <[l := init]> σ)) as Hnew.
    { unfold newHeaders. by rewrite Headers_of_init_single, Hv. }
    destruct (addResponseHeaders_run l (isEmbeddedApp (config params)) shop
                init (<[l := init]> σ)) as (h' & Hadd & Hh');
      [apply lookup_insert_eq|].
    rewrite insert_insert_eq in Hadd.
    exists (<[l := h']> σ).
    split; [apply insert_subseteq, fresh_not_allocated|].
    erewrite JS_bind_normal by exact Hnew.
    destruct (if isEmbeddedApp (config params)
              then forallb _ (embeddedAppHeaders shop) else true) eqn:Hacc.
    + split.
      * erewrite JS_bind_normal by exact Hadd. reflexivity.
      * intros _. by rewrite (Hh' eq_refl).
    + split; [|done]. by erewrite JS_bind_type_error by exact Hadd.
  - exists σ. split; [done|]. split; [|done].
    erewrite JS_bind_type_error; [done|].
    unfold newHeaders. by rewrite Headers_of_init_single, Hv.
Qed.

(** [getAppBridgeHeaders] when all is accepted. *)
Lemma getAppBridgeHeaders_run (params : BasicParams Shopify Logger)
    (url shop : string) (σ : heap) :
  headersAccepted params url shop = true →
  getAppBridgeHeaders REAUTH_URL_HEADER embeddedAppHeaders params url shop σ
  = (Normal (fresh (dom σ)),
     <[fresh (dom σ) := appBridgeEntries params url shop]> σ).
Proof.
  intros Hacc.
  destruct (getAppBridgeHeaders_outcome params url shop σ)
    as (σ' & _ & Hrun & Hσ').
  by rewrite Hrun, Hacc, (Hσ' Hacc).
Qed.

(** What [redirectWithAppBridgeHeaders] does on any input. *)
Lemma redirectWithAppBridgeHeaders_outcome
    (params : BasicParams Shopify Logger) (shop : string) (σ : heap) :
  ∃ σ' : heap,
    σ ⊆ σ'
    ∧ redirectWithAppBridgeHeaders REAUTH_URL_HEADER embeddedAppHeaders
        params shop σ
      = (if headersAccepted params (redirectUri params shop) shop
         then Throw (mkResponse None 401 "Unauthorized"
                       (appBridgeEntries params (redirectUri params shop) shop))
         else ThrowTypeError, σ').
Proof.
  destruct (getAppBridgeHeaders_outcome params (redirectUri params shop)
              shop σ) as (σ' & Hsub & Hrun & Hσ').
  exists σ'. split; [exact Hsub|].
  unfold redirectWithAppBridgeHeaders.
  destruct (headersAccepted params (redirectUri params shop) shop).
  - erewrite JS_bind_normal by exact Hrun.
    erewrite JS_bind_normal by reflexivity.
    unfold throw. by rewrite (Hσ' eq_refl), lookup_insert_eq.
  - by erewrite JS_bind_type_error by exact Hrun.
Qed.

(** [redirectWithAppBridgeHeaders] when all is accepted: it throws the
    response built from the object. *)
Lemma redirectWithAppBridgeHeaders_run (params : BasicParams Shopify Logger)
    (shop : string) (σ : heap) :
  headersAccepted params (redirectUri params shop) shop = true →
  redirectWithAppBridgeHeaders REAUTH_URL_HEADER embeddedAppHeaders params shop σ
  = (Throw (mkResponse None 401 "Unauthorized"
              (appBridgeEntries params (redirectUri params shop) shop)),
     <[fresh (dom σ) := appBridgeEntries params (redirectUri params shop) shop]> σ).
Proof.
  intros Hacc. unfold redirectWithAppBridgeHeaders.
  erewrite JS_bind_normal by (by apply getAppBridgeHeaders_run).
  erewrite JS_bind_normal by reflexivity.
  unfold throw. by rewrite lookup_insert_eq.
Qed.

Lemma appBridgeEntries_has_reauth (params : BasicParams Shopify Logger)
    (url shop : string) :
  is_Some (appBridgeEntries params url shop !! lower REAUTH_URL_HEADER).
Proof.
  unfold AppBridge.appBridgeEntries. destruct (isEmbeddedApp _).
  - apply Headers_put_all_is_Some. rewrite lookup_singleton_eq. by eexists.
  - rewrite lookup_singleton_eq. by eexists.
Qed.

Lemma appBridgeEntries_reauth (params : BasicParams Shopify Logger)
    (url shop : string) :
  params.(config).(isEmbeddedApp) = false
  ∨ notEmbeddedAppHeader embeddedAppHeaders shop REAUTH_URL_HEADER →
  appBridgeEntries params url shop !! lower REAUTH_URL_HEADER
  = Some (normalize url).
Proof.
  unfold AppBridge.appBridgeEntries, notEmbeddedAppHeader. intros [-> | Hne].
  - apply lookup_singleton_eq.
  - destruct (isEmbeddedApp _); [|apply lookup_singleton_eq].
    rewrite Headers_put_all_other by done. apply lookup_singleton_eq.
Qed.

(** The template literal of [redirectUri] is a concatenation. *)
Lemma redirectUri_eq (params : BasicParams Shopify Logger) (shop : string) :
  redirectUri params shop
  = ((params.(config).(appUrl) +:+ params.(config).(auth).(path))
     +:+ "?shop=") +:+ shop.
Proof.
  unfold redirectUri; cbn [templateLiteral].
  change ("" +:+ ?s) with s. by rewrite append_empty_r, !append_assoc.
Qed.

(** C1: for every params and every shop string, the redirect URL that
    [redirectWithAppBridgeHeaders] computes is the concatenation
    [appUrl + authPath + "?shop=" + shop], and it is the URL the function
    hands to [getAppBridgeHeaders]. *)
Theorem redirectUri_concatenation (params : BasicParams Shopify Logger)
    (shop : string) :
  let url := ((params.(config).(appUrl) +:+ params.(config).(auth).(path))
              +:+ "?shop=") +:+ shop in
  redirectUri params shop = url
  ∧ redirectWithAppBridgeHeaders REAUTH_URL_HEADER embeddedAppHeaders params shop
    = (headers ← getAppBridgeHeaders REAUTH_URL_HEADER embeddedAppHeaders
                   params url shop;
       response ← newResponse None 401 "Unauthorized" headers;
       throw response).
Proof.
  split; [apply redirectUri_eq|].
  unfold redirectWithAppBridgeHeaders. by rewrite redirectUri_eq.
Qed.


(** C2: for every params and every shop string for which [Headers] accepts
    the reauth name, the redirect URL and the headers [addResponseHeaders]
    sets, the response thrown by [redirectWithAppBridgeHeaders] carries the
    [REAUTH_URL_HEADER] header, and its value is the computed redirect URL
    [appUrl + authPath + "?shop=" + shop] with the HTTP whitespace at its
    two ends removed; for an embedded app, the embedded-app headers are
    taken not to go by the name [REAUTH_URL_HEADER]. *)
Theorem redirect_response_reauth_header (params : BasicParams Shopify Logger)
    (shop : string) (σ : heap) :
  headersAccepted params (redirectUri params shop) shop = true →
  params.(config).(isEmbeddedApp) = false
  ∨ notEmbeddedAppHeader embeddedAppHeaders shop REAUTH_URL_HEADER →
  ∃ (r : Response) (σ' : heap),
    redirectWithAppBridgeHeaders REAUTH_URL_HEADER embeddedAppHeaders params shop σ
    = (Throw r, σ')
    ∧ Headers_get REAUTH_URL_HEADER r.(headers)
      = Some (normalize
                (((params.(config).(appUrl) +:+ params.(config).(auth).(path))
                  +:+ "?shop=") +:+ shop)).
Proof.
  intros Hacc Hkept. eexists _, _.
  split; [by apply redirectWithAppBridgeHeaders_run|].
  unfold Headers_get; cbn [headers].
  rewrite appBridgeEntries_reauth by done.
  do 2 f_equal. apply redirectUri_eq.
Qed.

(** C3: for every params and every shop string for which [Headers] accepts
    the reauth name, the redirect URL and the headers [addResponseHeaders]
    sets, the response thrown by [redirectWithAppBridgeHeaders] has status
    401 and status text [Unauthorized], and its headers include the header
    named by [REAUTH_URL_HEADER]. *)
Theorem redirect_response_status_401 (params : BasicParams Shopify Logger)
    (shop : string) (σ : heap) :
  headersAccepted params (redirectUri params shop) shop = true →
  ∃ (r : Response) (σ' : heap),
    redirectWithAppBridgeHeaders REAUTH_URL_HEADER embeddedAppHeaders params shop σ
    = (Throw r, σ')
    ∧ r.(status) = 401
    ∧ r.(statusText) = "Unauthorized"
    ∧ Headers_has REAUTH_URL_HEADER r.(headers) = true.
Proof.
  intros Hacc. eexists _, _.
  split; [by apply redirectWithAppBridgeHeaders_run|].
  cbn [status statusText headers]. repeat split.
  unfold Headers_has. apply bool_decide_eq_true.
  apply appBridgeEntries_has_reauth.
Qed.


(** C6: [redirectWithAppBridgeHeaders] never returns normally, and every
    object that existed before the call is unchanged after it.  When
    [Headers] accepts the reauth name, the redirect URL and the headers
    [addResponseHeaders] sets, it ends by throwing one response, the 401
    response built from the headers; otherwise it ends with the [TypeError]
    of [Headers]. *)
Theorem redirect_always_throws (params : BasicParams Shopify Logger)
    (shop : string) (σ : heap) :
  ∃ (h : Headers) (σ' : heap),
    σ ⊆ σ'
    ∧ redirectWithAppBridgeHeaders REAUTH_URL_HEADER embeddedAppHeaders
        params shop σ
      = (if headersAccepted params (redirectUri params shop) shop
         then Throw (mkResponse None 401 "Unauthorized" h)
         else ThrowTypeError, σ').
Proof.
  destruct (redirectWithAppBridgeHeaders_outcome params shop σ)
    as (σ' & Hsub & Hrun).
  by eexists _, σ'.
Qed.

(** C8: for every params, url and shop for which [Headers] accepts the
    reauth name, the url and the headers [addResponseHeaders] sets, the
    [Headers] object [getAppBridgeHeaders] returns has the
    [REAUTH_URL_HEADER] header set to [url] with the HTTP whitespace at its
    two ends removed: always when [config.isEmbeddedApp] is false, and when
    it is true as long as no embedded-app header goes by that name. *)
Theorem getAppBridgeHeaders_reauth_header (params : BasicParams Shopify Logger)
    (url shop : string) (σ : heap) :
  headersAccepted params url shop = true →
  params.(config).(isEmbeddedApp) = false
  ∨ notEmbeddedAppHeader embeddedAppHeaders shop REAUTH_URL_HEADER →
  ∃ (l : loc) (σ' : heap) (h : Headers),
    getAppBridgeHeaders REAUTH_URL_HEADER embeddedAppHeaders params url shop σ
    = (Normal l, σ')
    ∧ σ' !! l = Some h
    ∧ Headers_get REAUTH_URL_HEADER h = Some (normalize url).
Proof.
  intros Hacc Hkept. eexists _, _, _.
  split; [by apply getAppBridgeHeaders_run|].
  split; [apply lookup_insert_eq|].
  unfold Headers_get. by apply appBridgeEntries_reauth.
Qed.

End AppBridgeProperties.

Lemma Sample_reauth_not_embedded :
  AppBridge.notEmbeddedAppHeader Sample.embeddedAppHeaders Sample.shop
    Sample.REAUTH_URL_HEADER.
Proof.
  constructor; [vm_compute; discriminate | constructor].
Defined.


Lemma redirect_response_reauth_header_witness :
  AppBridge.headersAccepted Sample.REAUTH_URL_HEADER Sample.embeddedAppHeaders
    Sample.params (AppBridge.redirectUri Sample.params Sample.shop)
    Sample.shop = true
  ∧ AppBridge.notEmbeddedAppHeader Sample.embeddedAppHeaders Sample.shop
      Sample.REAUTH_URL_HEADER
  ∧ ∃ (r : Response) (σ' : heap),
      AppBridge.redirectWithAppBridgeHeaders Sample.REAUTH_URL_HEADER
        Sample.embeddedAppHeaders Sample.params Sample.shop ∅
      = (Throw r, σ')
      ∧ Headers_get Sample.REAUTH_URL_HEADER r.(headers)
        = Some "https://my-app.example/auth?shop=my-shop.myshopify.com".
Proof.
  assert (AppBridge.headersAccepted Sample.REAUTH_URL_HEADER
            Sample.embeddedAppHeaders Sample.params
            (AppBridge.redirectUri Sample.params Sample.shop)
            Sample.shop = true) as Hacc by (vm_compute; reflexivity).
  split; [exact Hacc|]. split; [exact Sample_reauth_not_embedded|].
  exact (redirect_response_reauth_header Sample.REAUTH_URL_HEADER
           Sample.embeddedAppHeaders Sample.params Sample.shop ∅
           Hacc (or_intror Sample_reauth_not_embedded)).
Defined.

Lemma redirect_response_status_401_witness :
  ∃ (r : Response) (σ' : heap),
    AppBridge.redirectWithAppBridgeHeaders Sample.REAUTH_URL_HEADER
      Sample.embeddedAppHeaders Sample.params Sample.shop ∅
    = (Throw r, σ')
    ∧ r.(status) = 401
    ∧ r.(statusText) = "Unauthorized"
    ∧ Headers_has Sample.REAUTH_URL_HEADER r.(headers) = true.
Proof.
  apply (redirect_response_status_401 Sample.REAUTH_URL_HEADER
           Sample.embeddedAppHeaders Sample.params Sample.shop ∅).
  vm_compute. reflexivity.
Defined.


Lemma getAppBridgeHeaders_reauth_header_witness :
  ∃ (l : loc) (σ' : heap) (h : Headers),
    AppBridge.getAppBridgeHeaders Sample.REAUTH_URL_HEADER
      Sample.embeddedAppHeaders Sample.params Sample.urlBlanks Sample.shop ∅
    = (Normal l, σ')
    ∧ σ' !! l = Some h
    ∧ Headers_get Sample.REAUTH_URL_HEADER h = Some "/auth?shop=a b".
Proof.
  apply (getAppBridgeHeaders_reauth_header Sample.REAUTH_URL_HEADER
           Sample.embeddedAppHeaders Sample.params Sample.urlBlanks
           Sample.shop ∅);
    [vm_compute; reflexivity | exact (or_intror Sample_reauth_not_embedded)].
Defined.

(** At a shop with a blank at its end the thrown response carries the
    reauth header, but its value is the URL without that blank, not the
    computed URL. *)
Lemma redirect_response_reauth_header_counterexample :
  (∃ (r : Response) (σ' : heap),
     AppBridge.redirectWithAppBridgeHeaders Sample.REAUTH_URL_HEADER
       Sample.embeddedAppHeaders Sample.params Sample.shopTrailingBlank ∅
     = (Throw r, σ')
     ∧ Headers_get Sample.REAUTH_URL_HEADER r.(headers)
       = Some "https://my-app.example/auth?shop=my-shop.myshopify.com")
  ∧ ¬ ∃ (r : Response) (σ' : heap),
        AppBridge.redirectWithAppBridgeHeaders Sample.REAUTH_URL_HEADER
          Sample.embeddedAppHeaders Sample.params Sample.shopTrailingBlank ∅
        = (Throw r, σ')
        ∧ Headers_get Sample.REAUTH_URL_HEADER r.(headers)
          = Some ((("https://my-app.example" +:+ "/auth") +:+ "?shop=")
                  +:+ Sample.shopTrailingBlank).
Proof.
  split.
  - eexists _, _. split; [vm_compute; reflexivity|]. vm_compute. reflexivity.
  - intros (r & σ' & Hrun & Hget).
    vm_compute in Hrun. injection Hrun as <- <-.
    vm_compute in Hget. discriminate.
Qed.

(** At a shop with a line feed inside no response is thrown: the call ends
    with the [TypeError] of [Headers]. *)
Lemma redirect_response_status_401_counterexample :
  AppBridge.redirectWithAppBridgeHeaders Sample.REAUTH_URL_HEADER
    Sample.embeddedAppHeaders Sample.params Sample.shopLineFeed ∅
  = (ThrowTypeError, ∅)
  ∧ ¬ ∃ (r : Response) (σ' : heap),
        AppBridge.redirectWithAppBridgeHeaders Sample.REAUTH_URL_HEADER
          Sample.embeddedAppHeaders Sample.params Sample.shopLineFeed ∅
        = (Throw r, σ')
        ∧ r.(status) = 401
        ∧ r.(statusText) = "Unauthorized"
        ∧ Headers_has Sample.REAUTH_URL_HEADER r.(headers) = true.
Proof.
  split; [vm_compute; reflexivity|].
  intros (r & σ' & Hrun & _). vm_compute in Hrun. discriminate.
Qed.


(** At a shop with a line feed inside the call has another way out than
    the response: the [TypeError] of [Headers]. *)
Lemma redirect_always_throws_counterexample :
  ¬ ∃ (h : Headers) (σ' : heap),
      AppBridge.redirectWithAppBridgeHeaders Sample.REAUTH_URL_HEADER
        Sample.embeddedAppHeaders Sample.params Sample.shopLineFeed ∅
      = (Throw (mkResponse None 401 "Unauthorized" h), σ').
Proof.
  intros (h & σ' & Hrun). vm_compute in Hrun. discriminate.
Qed.

(** At a url with blanks at its ends the header is set, to the url without
    them. *)
Lemma getAppBridgeHeaders_reauth_header_counterexample :
  ¬ ∃ (l : loc) (σ' : heap) (h : Headers),
      AppBridge.getAppBridgeHeaders Sample.REAUTH_URL_HEADER
        Sample.embeddedAppHeaders Sample.params Sample.urlBlanks Sample.shop ∅
      = (Normal l, σ')
      ∧ σ' !! l = Some h
      ∧ Headers_get Sample.REAUTH_URL_HEADER h = Some Sample.urlBlanks.
Proof.
  intros (l & σ' & h & Hrun & Hl & Hget).
  vm_compute in Hrun. injection Hrun as <- <-.
  vm_compute in Hl. injection Hl as <-.
  vm_compute in Hget. discriminate.
Qed.

(** ** The session-storage adapter *)

Section SessionStorageProperties.

Import SessionStorage.

Context {DriverError : Type}.
Variable raises : DriverCall → Database → option DriverError.

(** A driver call that does not raise runs on the collection. *)
Lemma driver_resolved {A : Type} (call : DriverCall)
    (run : gmap string Session → A * gmap string Session) (db : Database) :
  raises call db = None →
  driver raises call run db
  = (Resolved (run db.(documents)).1,
     mkDatabase (run db.(documents)).2 (call :: db.(calls))).
Proof.
  intros Hok. unfold driver. rewrite Hok. by destruct (run _).
Qed.

(** A driver call that raises leaves the collection as it was. *)
Lemma driver_rejected {A : Type} (call : DriverCall)
    (run : gmap string Session → A * gmap string Session) (db : Database)
    (e : DriverError) :
  raises call db = Some e →
  driver raises call run db
  = (Rejected e, mkDatabase db.(documents) (call :: db.(calls))).
Proof. intros Herr. unfold driver. by rewrite Herr. Qed.

Lemma Async_bind_resolved {A B : Type} (m : Async DriverError A)
    (k : A → Async DriverError B)
    (db db' : Database) (a : A) :
  m db = (Resolved a, db') → (m ≫= k) db = k a db'.
Proof. intros Hm. unfold mbind, Async_bind. by rewrite Hm. Qed.

(** C5: while the driver raises no error, for every session and every key,
    [store(session)] followed by [load] of the session's key returns
    exactly the stored session, and [delete(key)] followed by [load(key)]
    returns no record. *)
Theorem store_load_delete_load (session : Session) (key : string)
    (db : Database) :
  (∀ call d, raises call d = None) →
  ((store_session raises session ;; load_session raises session.(id)) db).1
  = Resolved (Some session)
  ∧ ((delete_session raises key ;; load_session raises key) db).1
    = Resolved None.
Proof.
  intros Hok. split.
  - erewrite Async_bind_resolved by (by apply driver_resolved).
    unfold load_session. rewrite driver_resolved by done.
    cbn. by rewrite lookup_insert_eq.
  - erewrite Async_bind_resolved by (by apply driver_resolved).
    unfold load_session. rewrite driver_resolved by done.
    cbn. by rewrite lookup_delete_eq.
Qed.

(** C7: for each adapter operation ([store], [load], [delete]), when the
    driver raises an error [e] on the operation's call, the operation is
    rejected with that same [e]; the driver was called once (no retry) and
    the collection is as it was. *)
Theorem driver_error_propagates (db : Database) (e : DriverError) :
  (∀ session : Session,
     raises (ReplaceOne session.(id) session) db = Some e →
     store_session raises session db
     = (Rejected e,
        mkDatabase db.(documents)
                   (ReplaceOne session.(id) session :: db.(calls))))
  ∧ (∀ key : string,
       raises (FindOne key) db = Some e →
       load_session raises key db
       = (Rejected e, mkDatabase db.(documents) (FindOne key :: db.(calls))))
  ∧ (∀ key : string,
       raises (DeleteOne key) db = Some e →
       delete_session raises key db
       = (Rejected e, mkDatabase db.(documents) (DeleteOne key :: db.(calls)))).
Proof.
  repeat split; intros x Herr.
  - unfold store_session. by apply driver_rejected.
  - unfold load_session. by apply driver_rejected.
  - unfold delete_session. by apply driver_rejected.
Qed.

End SessionStorageProperties.

Lemma store_load_delete_load_witness :
  ((SessionStorage.store_session Sample.healthy Sample.session ;;
    SessionStorage.load_session Sample.healthy
      "offline_my-shop.myshopify.com") Sample.emptyDatabase).1
  = SessionStorage.Resolved (Some Sample.session)
  ∧ ((SessionStorage.delete_session Sample.healthy "k" ;;
      SessionStorage.load_session Sample.healthy "k") Sample.emptyDatabase).1
    = SessionStorage.Resolved None.
Proof.
  exact (store_load_delete_load Sample.healthy Sample.session "k"
           Sample.emptyDatabase (λ _ _, eq_refl)).
Defined.

Lemma driver_error_propagates_witness :
  SessionStorage.store_session (Sample.broken "ECONNRESET") Sample.session
    Sample.emptyDatabase
  = (SessionStorage.Rejected "ECONNRESET",
     SessionStorage.mkDatabase ∅
       [SessionStorage.ReplaceOne "offline_my-shop.myshopify.com"
          Sample.session])
  ∧ SessionStorage.load_session (Sample.broken "ECONNRESET") "k"
      Sample.emptyDatabase
    = (SessionStorage.Rejected "ECONNRESET",
       SessionStorage.mkDatabase ∅ [SessionStorage.FindOne "k"])
  ∧ SessionStorage.delete_session (Sample.broken "ECONNRESET") "k"
      Sample.emptyDatabase
    = (SessionStorage.Rejected "ECONNRESET",
       SessionStorage.mkDatabase ∅ [SessionStorage.DeleteOne "k"]).
Proof.
  pose proof (driver_error_propagates (Sample.broken "ECONNRESET")
                Sample.emptyDatabase "ECONNRESET") as (Hs & Hl & Hd).
  split; [exact (Hs Sample.session eq_refl)|].
  split; [exact (Hl "k" eq_refl) | exact (Hd "k" eq_refl)].
Defined.

(** ** The jest configuration *)

Section JestConfigProperties.

Import JestConfig.

Context {Value : Type}.
Variable number : Z → Value.
Variable baseConfig : gmap string Value.

(** C10: the package's jest configuration has [testTimeout] set to 70000
    and, on every other field, what the shared base configuration has. *)
Theorem config_overrides_testTimeout (field : string) :
  config number baseConfig !! field
  = if decide (field = "testTimeout") then Some (number 70000)
    else baseConfig !! field.
Proof.
  unfold config, property, spread.
  rewrite (right_id_L ∅ (∪)), lookup_insert.
  repeat case_decide; congruence.
Qed.

End JestConfigProperties.

(** ** Worked examples *)

Section Examples.

Example redirectUri_sample :
  AppBridge.redirectUri Sample.params Sample.shop
  = "https://my-app.example/auth?shop=my-shop.myshopify.com".
Proof. reflexivity. Qed.

(** An embedded app: the thrown response carries both headers. *)
Example redirect_sample_embedded :
  (AppBridge.redirectWithAppBridgeHeaders Sample.REAUTH_URL_HEADER
     Sample.embeddedAppHeaders Sample.params Sample.shop ∅).1
  = Throw (mkResponse None 401 "Unauthorized"
      (list_to_map
         [("x-shopify-api-request-failure-reauthorize-url",
           "https://my-app.example/auth?shop=my-shop.myshopify.com");
          ("content-security-policy",
           "frame-ancestors https://my-shop.myshopify.com https://admin.shopify.com;")])).
Proof. vm_compute. reflexivity. Qed.

(** An app that is not embedded: the reauth header alone. *)
Example redirect_sample_not_embedded :
  (AppBridge.redirectWithAppBridgeHeaders Sample.REAUTH_URL_HEADER
     Sample.embeddedAppHeaders
     {| AppBridge.api := tt;
        AppBridge.config :=
          {| AppBridge.appUrl := "";
             AppBridge.auth := {| AppBridge.path := "/auth" |};
             AppBridge.isEmbeddedApp := false |};
        AppBridge.logger := tt |} "" ∅).1
  = Throw (mkResponse None 401 "Unauthorized"
      {["x-shopify-api-request-failure-reauthorize-url" := "/auth?shop="]}).
Proof. vm_compute. reflexivity. Qed.

(** Header names are matched without regard to case. *)
Example Headers_get_case :
  Headers_get "x-SHOPIFY-api-request-failure-reauthorize-url"
    (Headers_put Sample.REAUTH_URL_HEADER "u" ∅) = Some "u".
Proof. reflexivity. Qed.

(** Were an embedded-app header to go by the reauth name, it would replace
    the URL: the side condition on the embedded-app headers is needed. *)
Example reauth_header_overwritten :
  ∃ (l : loc) (σ' : heap) (h : Headers),
    AppBridge.getAppBridgeHeaders Sample.REAUTH_URL_HEADER
      (λ _, [("x-shopify-api-request-failure-reauthorize-url", "other")])
      Sample.params "/auth?shop=a" Sample.shop ∅
    = (Normal l, σ')
    ∧ σ' !! l = Some h
    ∧ Headers_get Sample.REAUTH_URL_HEADER h = Some "other".
Proof.
  eexists _, _, _. split; [vm_compute; reflexivity|].
  split; [vm_compute; reflexivity|]. reflexivity.
Qed.

(** Store, then a second store under the same key: the later one is read. *)
Example store_twice_sample :
  let later :=
    {| SessionStorage.id := "offline_my-shop.myshopify.com";
       SessionStorage.shop := "my-shop.myshopify.com";
       SessionStorage.accessToken := "shpat_4567";
       SessionStorage.scope := "read_products,write_products";
       SessionStorage.expires := Some 1700000000;
       SessionStorage.isOnline := false |} in
  ((SessionStorage.store_session Sample.healthy Sample.session ;;
    SessionStorage.store_session Sample.healthy later ;;
    SessionStorage.load_session Sample.healthy
      "offline_my-shop.myshopify.com") Sample.emptyDatabase).1
  = SessionStorage.Resolved (Some later).
Proof. reflexivity. Qed.

(** A failing store stops the sequence: the load is not attempted. *)
Example store_fails_sample :
  (SessionStorage.store_session (Sample.broken "ECONNRESET") Sample.session ;;
   SessionStorage.load_session (Sample.broken "ECONNRESET")
     "offline_my-shop.myshopify.com") Sample.emptyDatabase
  = (SessionStorage.Rejected "ECONNRESET",
     SessionStorage.mkDatabase ∅
       [SessionStorage.ReplaceOne "offline_my-shop.myshopify.com"
          Sample.session]).
Proof. reflexivity. Qed.

End Examples.

(** ** Further properties of [redirect-with-app-bridge-headers.ts] *)

Section AppBridgeFurther.

Import AppBridge.

Context {Shopify Logger : Type}.
Variable REAUTH_URL_HEADER : string.
Variable embeddedAppHeaders : string → list (string * string).

Local Abbreviation entries :=
  (appBridgeEntries REAUTH_URL_HEADER embeddedAppHeaders).
Local Abbreviation accepted :=
  (headersAccepted REAUTH_URL_HEADER embeddedAppHeaders).

(** X1: the shop is put into the redirect URL as it is, with no escaping:
    whatever is appended to the shop string is appended to the URL. *)
Theorem redirectUri_shop_verbatim (params : BasicParams Shopify Logger)
    (shop extra : string) :
  redirectUri params (shop +:+ extra) = redirectUri params shop +:+ extra.
Proof.
  rewrite !redirectUri_eq. by rewrite !append_assoc.
Qed.

(** X2: for fixed params, different shops get different redirect URLs. *)
Theorem redirectUri_shop_inj (params : BasicParams Shopify Logger)
    (shop1 shop2 : string) :
  redirectUri params shop1 = redirectUri params shop2 → shop1 = shop2.
Proof.
  rewrite !redirectUri_eq. intros Heq.
  by apply (inj (String.app _)) in Heq.
Qed.

(** X3: when [Headers] accepts what it is given, [getAppBridgeHeaders]
    returns normally with a newly created object.  Two such calls in a row
    return two different objects, neither of which existed before; the
    second call leaves the object of the first as it was, and every object
    that existed before is unchanged. *)
Theorem getAppBridgeHeaders_fresh_objects
    (params1 params2 : BasicParams Shopify Logger)
    (url1 shop1 url2 shop2 : string) (σ : heap) :
  accepted params1 url1 shop1 = true →
  accepted params2 url2 shop2 = true →
  ∃ (l1 l2 : loc) (σ1 σ2 : heap),
    getAppBridgeHeaders REAUTH_URL_HEADER embeddedAppHeaders
      params1 url1 shop1 σ = (Normal l1, σ1)
    ∧ getAppBridgeHeaders REAUTH_URL_HEADER embeddedAppHeaders
        params2 url2 shop2 σ1 = (Normal l2, σ2)
    ∧ l1 ≠ l2
    ∧ σ !! l1 = None ∧ σ !! l2 = None
    ∧ is_Some (σ1 !! l1) ∧ is_Some (σ2 !! l2)
    ∧ σ ⊆ σ1 ∧ σ1 ⊆ σ2.
Proof.
  intros Hacc1 Hacc2.
  set (l1 := fresh (dom σ)).
  set (σ1 := <[l1 := entries params1 url1 shop1]> σ).
  set (l2 := fresh (dom σ1)).
  assert (σ !! l1 = None) as Hl1 by apply fresh_not_allocated.
  assert (σ1 !! l2 = None) as Hl2 by apply fresh_not_allocated.
  assert (l1 ≠ l2) as Hne.
  { intros Heq. rewrite <-Heq in Hl2. unfold σ1 in Hl2.
    by rewrite lookup_insert_eq in Hl2. }
  exists l1, l2, σ1, (<[l2 := entries params2 url2 shop2]> σ1).
  split; [by apply getAppBridgeHeaders_run|].
  split; [by apply getAppBridgeHeaders_run|].
  split; [exact Hne|]. split; [exact Hl1|].
  split. { unfold σ1 in Hl2. by rewrite lookup_insert_ne in Hl2. }
  split. { unfold σ1. rewrite lookup_insert_eq. by eexists. }
  split. { rewrite lookup_insert_eq. by eexists. }
  split; by apply insert_subseteq.
Qed.

(** X5: the response [redirectWithAppBridgeHeaders] throws does not depend
    on the objects that exist when it is called. *)
Theorem redirect_response_heap_independent
    (params : BasicParams Shopify Logger) (shop : string) (σ1 σ2 : heap) :
  (redirectWithAppBridgeHeaders REAUTH_URL_HEADER embeddedAppHeaders
     params shop σ1).1
  = (redirectWithAppBridgeHeaders REAUTH_URL_HEADER embeddedAppHeaders
       params shop σ2).1.
Proof.
  destruct (redirectWithAppBridgeHeaders_outcome REAUTH_URL_HEADER
              embeddedAppHeaders params shop σ1) as (σ1' & _ & ->).
  destruct (redirectWithAppBridgeHeaders_outcome REAUTH_URL_HEADER
              embeddedAppHeaders params shop σ2) as (σ2' & _ & ->).
  reflexivity.
Qed.

End AppBridgeFurther.
Lemma redirectUri_shop_inj_witness :
  AppBridge.redirectUri Sample.params "my-shop.myshopify.com"
  = AppBridge.redirectUri Sample.params Sample.shop
  ∧ "my-shop.myshopify.com" = Sample.shop.
Proof.
  split; [reflexivity|].
  exact (redirectUri_shop_inj Sample.params "my-shop.myshopify.com"
           Sample.shop eq_refl).
Defined.

Lemma getAppBridgeHeaders_fresh_objects_witness :
  ∃ (l1 l2 : loc) (σ1 σ2 : heap),
    AppBridge.getAppBridgeHeaders Sample.REAUTH_URL_HEADER
      Sample.embeddedAppHeaders Sample.params "/auth?shop=a" "a" ∅
    = (Normal l1, σ1)
    ∧ AppBridge.getAppBridgeHeaders Sample.REAUTH_URL_HEADER
        Sample.embeddedAppHeaders Sample.params "/auth?shop=b" "b" σ1
      = (Normal l2, σ2)
    ∧ l1 ≠ l2
    ∧ (∅ : heap) !! l1 = None ∧ (∅ : heap) !! l2 = None
    ∧ is_Some (σ1 !! l1) ∧ is_Some (σ2 !! l2)
    ∧ ∅ ⊆ σ1 ∧ σ1 ⊆ σ2.
Proof.
  apply (getAppBridgeHeaders_fresh_objects Sample.REAUTH_URL_HEADER
           Sample.embeddedAppHeaders Sample.params Sample.params
           "/auth?shop=a" "a" "/auth?shop=b" "b" ∅);
    vm_compute; reflexivity.
Defined.

(** ** Further properties of the jest configuration *)

Section JestConfigFurther.

Import JestConfig.

Context {Value : Type}.
Variable number : Z → Value.

(** X6: whatever [testTimeout] the base configuration sets is discarded:
    two bases that differ only there give the same configuration. *)
Theorem config_ignores_base_testTimeout (baseConfig : gmap string Value)
    (v : Value) :
  config number (<["testTimeout" := v]> baseConfig) = config number baseConfig.
Proof.
  unfold config, property, spread.
  by rewrite !(right_id_L ∅ (∪)), insert_insert_eq.
Qed.

(** X7: the configuration has the fields of the base configuration and
    [testTimeout], no field is dropped and no other is added. *)
Theorem config_fields (baseConfig : gmap string Value) :
  dom (config number baseConfig) = {["testTimeout"]} ∪ dom baseConfig.
Proof.
  unfold config, property, spread.
  by rewrite (right_id_L ∅ (∪)), dom_insert_L.
Qed.

End JestConfigFurther.

(** ** Further properties of the type module *)

Section TypesFurther.

Import Types.

(** X8: the two members of [LoginErrorType] have different values: the
    value tells which error it is. *)
Theorem LoginErrorType_value_inj (t1 t2 : LoginErrorType) :
  LoginErrorType_value t1 = LoginErrorType_value t2 → t1 = t2.
Proof. by destruct t1, t2. Qed.

End TypesFurther.

Lemma LoginErrorType_value_inj_witness :
  Types.LoginErrorType_value Types.InvalidShop = "INVALID_SHOP"
  ∧ Types.InvalidShop = Types.InvalidShop.
Proof.
  split; [reflexivity|].
  exact (LoginErrorType_value_inj Types.InvalidShop Types.InvalidShop eq_refl).
Defined.
